(** * The watch list: category registry, seed data, search preview and theme

    A shallow embedding of the data layer of the watch-list front end:
    the constants module (CATEGORIES, GENRE_OPTIONS, STATUS_OPTIONS,
    INITIAL_DATA) and the two memoised values of the [Layout] component that
    carry logic, [currentCategory]/[themeColor] and [searchPreview].

    JavaScript strings are modelled as Rocq strings whose characters are the
    code units 0..255 (the Latin-1 range, which contains every literal of the
    constants module).  On that range [toLowerCase] acts unit by unit and
    [trim] removes the units 9-13, 32 and 160. *)

From Stdlib Require Import Ascii NArith ZArith.
From stdpp Require Import base list strings.

(** ** JavaScript string primitives *)

Module JS.

Local Open Scope N_scope.

(** Code unit of a character. *)
Definition code (c : ascii) : N := N_of_ascii c.

(** [String.prototype.toLowerCase] on one code unit below 256: A-Z and the
    Latin-1 capitals U+00C0-U+00DE (U+00D7, the multiplication sign, apart)
    move up by 32, everything else is kept.  Beyond 255 the built-in is
    not unit-wise (a capital sigma becomes a final or a medial sigma by its
    neighbours); such strings are outside this model. *)
Definition lowerUnit (c : ascii) : ascii :=
  let n := code c in
  if ((65 <=? n) && (n <=? 90))
     || ((192 <=? n) && (n <=? 222) && negb (n =? 215))
  then ascii_of_N (n + 32) else c.

Fixpoint toLowerCase (s : string) : string :=
  match s with
  | EmptyString => EmptyString
  | String c s' => String (lowerUnit c) (toLowerCase s')
  end.

(** WhiteSpace and LineTerminator code units below 256. *)
Definition isWhiteSpace (c : ascii) : bool :=
  let n := code c in
  ((9 <=? n) && (n <=? 13)) || (n =? 32) || (n =? 160).

Fixpoint trimStart (s : string) : string :=
  match s with
  | EmptyString => EmptyString
  | String c s' => if isWhiteSpace c then trimStart s' else s
  end.

Fixpoint trimEnd (s : string) : string :=
  match s with
  | EmptyString => EmptyString
  | String c s' =>
      match trimEnd s' with
      | EmptyString => if isWhiteSpace c then EmptyString else String c EmptyString
      | r => String c r
      end
  end.

(** [String.prototype.trim]. *)
Definition trim (s : string) : string := trimEnd (trimStart s).

(** [t] is an initial segment of [s]. *)
Fixpoint startsWith (s t : string) : bool :=
  match t, s with
  | EmptyString, _ => true
  | String _ _, EmptyString => false
  | String b t', String a s' => if Ascii.eqb a b then startsWith s' t' else false
  end.

(** [String.prototype.includes]: [t] occurs in [s] at some position. *)
Fixpoint includes (s t : string) : bool :=
  startsWith s t ||
  match s with
  | EmptyString => false
  | String _ s' => includes s' t
  end.

(** ToBoolean on a string: only the empty string is falsy. *)
Definition truthy (s : string) : bool :=
  match s with EmptyString => false | String _ _ => true end.

(** Strict equality [===] on strings. *)
Definition strictEq (s t : string) : bool := String.eqb s t.

(** A string made of white space only (the empty string included). *)
Fixpoint isBlank (s : string) : bool :=
  match s with
  | EmptyString => true
  | String c s' => isWhiteSpace c && isBlank s'
  end.

(** *** URI component encoding *)

(** The characters [encodeURIComponent] leaves alone: letters, digits and
    the marks - _ . ! ~ * ' ( ). *)
Definition isUnreserved (c : ascii) : bool :=
  let n := code c in
  ((65 <=? n) && (n <=? 90)) || ((97 <=? n) && (n <=? 122))
  || ((48 <=? n) && (n <=? 57))
  || (n =? 45) || (n =? 95) || (n =? 46) || (n =? 33) || (n =? 126)
  || (n =? 42) || (n =? 39) || (n =? 40) || (n =? 41).

(** Upper-case hexadecimal digit of a value below 16. *)
Definition hexDigit (n : N) : ascii :=
  ascii_of_N (if n <? 10 then 48 + n else 55 + n).

(** "%XY" for one octet. *)
Definition percentEscape (octet : N) : string :=
  String "%" (String (hexDigit (octet / 16))
                     (String (hexDigit (octet mod 16)) EmptyString)).

(** One code unit below 256: kept when unreserved, else the escapes of its
    UTF-8 octets (one octet below 128, two from 128 on). *)
Definition encodeUnit (c : ascii) : string :=
  let n := code c in
  if isUnreserved c then String c EmptyString
  else if n <? 128 then percentEscape n
  else String.append (percentEscape (192 + n / 64))
                     (percentEscape (128 + n mod 64)).

(** [encodeURIComponent] on code units below 256.  The built-in throws
    URIError on a lone surrogate; there is none below 256, so that path is
    outside this model and the function is total here. *)
Fixpoint encodeURIComponent (s : string) : string :=
  match s with
  | EmptyString => EmptyString
  | String c s' => String.append (encodeUnit c) (encodeURIComponent s')
  end.

(** Reading an encoding back, one code unit at a time; used to show that
    the encoding loses nothing. *)
Definition hexValue (c : ascii) : option N :=
  let n := code c in
  if (48 <=? n) && (n <=? 57) then Some (n - 48)
  else if (65 <=? n) && (n <=? 70) then Some (n - 55)
  else None.

Definition readEscape (s : string) : option (N * string) :=
  match s with
  | String p (String h (String l rest)) =>
      if code p =? 37 then
        match hexValue h, hexValue l with
        | Some a, Some b => Some (16 * a + b, rest)
        | _, _ => None
        end
      else None
  | _ => None
  end.

Definition decodeFirst (s : string) : option (ascii * string) :=
  match s with
  | EmptyString => None
  | String c rest =>
      if code c =? 37 then
        match readEscape s with
        | Some (o, rest1) =>
            if o <? 128 then Some (ascii_of_N o, rest1)
            else match readEscape rest1 with
                 | Some (o2, rest2) =>
                     Some (ascii_of_N ((o - 192) * 64 + (o2 - 128)), rest2)
                 | None => None
                 end
        | None => None
        end
      else Some (c, rest)
  end.

(** Every character of [s] satisfies [p]. *)
Fixpoint allChars (p : ascii -> bool) (s : string) : bool :=
  match s with
  | EmptyString => true
  | String c s' => p c && allChars p s'
  end.

(** Digits 0-9, A-F and a-f. *)
Definition isHexDigit (c : ascii) : bool :=
  let n := code c in
  ((48 <=? n) && (n <=? 57)) || ((65 <=? n) && (n <=? 70))
  || ((97 <=? n) && (n <=? 102)).

End JS.

(** ** Record shapes (types module) *)

Module CategoryInfo.
(** Modelled from the spec: the types module that declares CategoryInfo is
    not among the sources; the fields are those of the "Category" entry of
    the data model and of the literals of CATEGORIES. *)
Record t : Type := Build {
  id : string;
  name : string;
  color : string;
  gradient : string;
  path : string
}.
End CategoryInfo.

Module StatusOption.
(** The shape of the entries of STATUS_OPTIONS (inferred by the compiler
    from the literal). *)
Record t : Type := Build {
  value : string;
  label : string;
  color : string
}.
End StatusOption.

Module WatchItem.
(** Modelled from the spec: the types module that declares WatchItem is not
    among the sources; the fields are those of the "WatchItem" entry of the
    data model and of the literals of INITIAL_DATA, with the two optional
    links as options. *)
Record t : Type := Build {
  id : string;
  category : string;
  title : string;
  year : Z;
  poster : string;
  myRating : Z;
  episodes : Z;
  episodesWatched : Z;
  status : string;
  genres : list string;
  watchLink : option string;
  trailerUrl : option string;
  dateAdded : string;
  lastUpdated : string;
  favorite : bool
}.
End WatchItem.

(** ** The constants module *)

Definition CATEGORIES : list CategoryInfo.t :=
  [ CategoryInfo.Build "kdrama" "K-DRAMA" "#A42EFF" "from-[#1a0a2e] to-[#A42EFF]" "/kdrama";
    CategoryInfo.Build "kmovie" "K-MOVIE" "#A42EFF" "from-[#1a0a2e] to-[#A42EFF]" "/kmovie";
    CategoryInfo.Build "hdrama" "H-DRAMA" "#5045D9" "from-[#0a0a2e] to-[#5045D9]" "/hdrama";
    CategoryInfo.Build "hmovie" "H-MOVIE" "#5045D9" "from-[#0a0a2e] to-[#5045D9]" "/hmovie";
    CategoryInfo.Build "bdrama" "B-DRAMA" "#E81717" "from-[#2e0a0a] to-[#E81717]" "/bdrama";
    CategoryInfo.Build "bmovie" "B-MOVIE" "#E81717" "from-[#2e0a0a] to-[#E81717]" "/bmovie";
    CategoryInfo.Build "cdrama" "C-DRAMA" "#F7D625" "from-[#2e2a0a] to-[#F7D625]" "/cdrama";
    CategoryInfo.Build "anime" "ANIME" "#FF7DE8" "from-[#2e0a26] to-[#FF7DE8]" "/anime" ].

Definition GENRE_OPTIONS : list string :=
  [ "Romance"; "Drama"; "Comedy"; "Action"; "Thriller"; "Fantasy"; "Horror"; "Sci-Fi";
    "Historical"; "Mystery"; "Slice of Life"; "Adventure"; "Supernatural"; "Crime";
    "Family"; "Music"; "Sports"; "Martial Arts" ].

Definition STATUS_OPTIONS : list StatusOption.t :=
  [ StatusOption.Build "watching" "Watching" "#4CAF50";
    StatusOption.Build "completed" "Completed" "#2196F3";
    StatusOption.Build "plan-to-watch" "Plan to Watch" "#FFC107";
    StatusOption.Build "on-hold" "On Hold" "#9E9E9E";
    StatusOption.Build "dropped" "Dropped" "#F44336" ].

Definition INITIAL_DATA : list WatchItem.t :=
  [ {| WatchItem.id := "kd001";
       WatchItem.category := "kdrama";
       WatchItem.title := "Lovely Runner";
       WatchItem.year := 2024;
       WatchItem.poster := "https://picsum.photos/seed/lovely/500/750";
       WatchItem.myRating := 10;
       WatchItem.episodes := 16;
       WatchItem.episodesWatched := 16;
       WatchItem.status := "completed";
       WatchItem.genres := ["Romance"; "Fantasy"; "Comedy"];
       WatchItem.watchLink := Some "https://example.com/watch/lovely-runner";
       WatchItem.trailerUrl := Some "https://www.youtube.com/watch?v=8M7Y703sZSc";
       WatchItem.dateAdded := "2024-12-15";
       WatchItem.lastUpdated := "2024-12-16";
       WatchItem.favorite := true |};
    {| WatchItem.id := "hm001";
       WatchItem.category := "hmovie";
       WatchItem.title := "Dune: Part Two";
       WatchItem.year := 2024;
       WatchItem.poster := "https://picsum.photos/seed/dune/500/750";
       WatchItem.myRating := 9;
       WatchItem.episodes := 1;
       WatchItem.episodesWatched := 1;
       WatchItem.status := "completed";
       WatchItem.genres := ["Sci-Fi"; "Adventure"; "Drama"];
       WatchItem.watchLink := Some "https://example.com/watch/dune-2";
       WatchItem.trailerUrl := None;
       WatchItem.dateAdded := "2024-12-10";
       WatchItem.lastUpdated := "2024-12-12";
       WatchItem.favorite := true |};
    {| WatchItem.id := "ani001";
       WatchItem.category := "anime";
       WatchItem.title := "Jujutsu Kaisen";
       WatchItem.year := 2023;
       WatchItem.poster := "https://picsum.photos/seed/jjk/500/750";
       WatchItem.myRating := 9;
       WatchItem.episodes := 24;
       WatchItem.episodesWatched := 24;
       WatchItem.status := "completed";
       WatchItem.genres := ["Action"; "Fantasy"; "Supernatural"];
       WatchItem.watchLink := Some "https://example.com/watch/jujutsu-kaisen";
       WatchItem.trailerUrl := None;
       WatchItem.dateAdded := "2024-11-20";
       WatchItem.lastUpdated := "2024-11-25";
       WatchItem.favorite := true |};
    {| WatchItem.id := "cd001";
       WatchItem.category := "cdrama";
       WatchItem.title := "Love Between Fairy and Devil";
       WatchItem.year := 2022;
       WatchItem.poster := "https://picsum.photos/seed/fairy/500/750";
       WatchItem.myRating := 8;
       WatchItem.episodes := 36;
       WatchItem.episodesWatched := 36;
       WatchItem.status := "completed";
       WatchItem.genres := ["Romance"; "Fantasy"];
       WatchItem.watchLink := Some "https://example.com/watch/fairy-devil";
       WatchItem.trailerUrl := None;
       WatchItem.dateAdded := "2024-10-05";
       WatchItem.lastUpdated := "2024-10-06";
       WatchItem.favorite := false |} ].

(** ** The Layout component: theme resolution and search preview *)

(** The accent used when the route is not a category route. *)
Definition defaultThemeColor : string := "#A42EFF".

(** [CATEGORIES.find(cat => location.pathname === cat.path)]; [None] is
    JavaScript's [undefined]. *)
Definition currentCategory (pathname : string) : option CategoryInfo.t :=
  List.find (fun cat => JS.strictEq pathname (CategoryInfo.path cat)) CATEGORIES.

(** [currentCategory?.color || '#A42EFF']: the fallback is taken when there is
    no category and also when its colour is the empty string. *)
Definition themeColor (pathname : string) : string :=
  match currentCategory pathname with
  | Some cat =>
      if JS.truthy (CategoryInfo.color cat) then CategoryInfo.color cat
      else defaultThemeColor
  | None => defaultThemeColor
  end.

(** The callback of the filter in [searchPreview]:
    [item.title.toLowerCase().includes(searchQuery.toLowerCase())]. *)
Definition titleIncludes (searchQuery : string) (item : WatchItem.t) : bool :=
  JS.includes (JS.toLowerCase (WatchItem.title item)) (JS.toLowerCase searchQuery).

(** [if (!searchQuery.trim()) return [];
     return items.filter(...).slice(0, 5);] *)
Definition searchPreview (items : list WatchItem.t) (searchQuery : string)
  : list WatchItem.t :=
  if negb (JS.truthy (JS.trim searchQuery)) then []
  else take 5 (filter (fun item => titleIncludes searchQuery item) items).

(** The list the filter step of [searchPreview] builds: all the items whose
    title matches, before the cut to five. *)
Definition matching (searchQuery : string) (items : list WatchItem.t)
  : list WatchItem.t :=
  filter (fun item => titleIncludes searchQuery item) items.

(** Two items with the same title (their other fields are free). *)
Definition sameTitle (a b : WatchItem.t) : Prop :=
  WatchItem.title a = WatchItem.title b.

(** ** The Layout component: state, handlers and what is rendered *)

Module LayoutState.
(** The two [useState] cells of [Layout]. *)
Record t : Type := Build {
  searchQuery : string;
  searchActive : bool
}.
End LayoutState.

(** [useState('')] and [useState(false)]. *)
Definition initialState : LayoutState.t := LayoutState.Build "" false.

(** What a handler does to the outside: [e.preventDefault()],
    [navigate(to)] and the [onSelectItem(id)] callback of the props. *)
Inductive Effect : Type :=
  | PreventDefault
  | Navigate (to : string)
  | SelectItem (id : string).

(** [handleSearch], the submit handler of the search form. *)
Definition handleSearch (st : LayoutState.t) : LayoutState.t * list Effect :=
  if JS.truthy (JS.trim (LayoutState.searchQuery st)) then
    (LayoutState.Build "" false,
     [PreventDefault;
      Navigate ("/search?q=" +:+ JS.encodeURIComponent (LayoutState.searchQuery st))])
  else (st, [PreventDefault]).

(** [handleClickOutside], the document mousedown listener; [inside] is the
    result of [searchRef.current.contains(event.target)] (the search box is
    always mounted). *)
Definition handleClickOutside (inside : bool) (st : LayoutState.t) : LayoutState.t :=
  if negb inside then LayoutState.Build (LayoutState.searchQuery st) false
  else st.

(** [onClick] of the search button: [setSearchActive(!searchActive)]. *)
Definition toggleSearch (st : LayoutState.t) : LayoutState.t :=
  LayoutState.Build (LayoutState.searchQuery st) (negb (LayoutState.searchActive st)).

(** [onChange] of the input: [setSearchQuery(e.target.value)]. *)
Definition changeQuery (value : string) (st : LayoutState.t) : LayoutState.t :=
  LayoutState.Build value (LayoutState.searchActive st).

(** [onClick] of a preview entry: [onSelectItem(item.id)], then the search
    is closed and the query cleared. *)
Definition selectPreviewItem (item : WatchItem.t) (st : LayoutState.t)
  : LayoutState.t * list Effect :=
  (LayoutState.Build "" false, [SelectItem (WatchItem.id item)]).

(** The search preview dropdown: not rendered, rendered with the
    "No matches found" panel, or rendered with one button per item. *)
Inductive Dropdown : Type :=
  | Hidden
  | NoMatches
  | Matches (shown : list WatchItem.t).

(** [searchActive && searchQuery && (searchPreview.length > 0 ? ... : ...)]. *)
Definition dropdown (items : list WatchItem.t) (st : LayoutState.t) : Dropdown :=
  if LayoutState.searchActive st && JS.truthy (LayoutState.searchQuery st) then
    let preview := searchPreview items (LayoutState.searchQuery st) in
    if 0 <? length preview then Matches preview else NoMatches
  else Hidden.

(** What the user can do with the rendered search box. *)
Inductive Event : Type :=
  | ClickSearchButton
  | ChangeQuery (value : string)
  | SubmitSearch
  | ClickPreviewItem (index : nat)
  | MouseDown (inside : bool).

(** One event: the new state and the effects, or [None] when the element
    the event needs is not rendered in this state (the form and its input
    exist only while the search is active, a preview button only for an
    entry of the dropdown). *)
Definition step (items : list WatchItem.t) (st : LayoutState.t) (ev : Event)
  : option (LayoutState.t * list Effect) :=
  match ev with
  | ClickSearchButton => Some (toggleSearch st, [])
  | ChangeQuery value =>
      if LayoutState.searchActive st then Some (changeQuery value st, []) else None
  | SubmitSearch =>
      if LayoutState.searchActive st then Some (handleSearch st) else None
  | ClickPreviewItem index =>
      match dropdown items st with
      | Matches shown =>
          match shown !! index with
          | Some item => Some (selectPreviewItem item st)
          | None => None
          end
      | _ => None
      end
  | MouseDown inside => Some (handleClickOutside inside st, [])
  end.

(** A sequence of events, with the effects in the order they happen. *)
Fixpoint run (items : list WatchItem.t) (st : LayoutState.t) (evs : list Event)
  : option (LayoutState.t * list Effect) :=
  match evs with
  | [] => Some (st, [])
  | ev :: evs' =>
      match step items st ev with
      | Some (st', effs) =>
          match run items st' evs' with
          | Some (st'', effs') => Some (st'', effs ++ effs')
          | None => None
          end
      | None => None
      end
  end.

(** *** Navigation links *)

(** [location.pathname === '/'], the Home link. *)
Definition homeActive (pathname : string) : bool := JS.strictEq pathname "/".

(** [location.pathname === '/admin'], the admin button. *)
Definition adminActive (pathname : string) : bool := JS.strictEq pathname "/admin".

(** [isActive] of a category link. *)
Definition isActive (pathname : string) (cat : CategoryInfo.t) : bool :=
  JS.strictEq pathname (CategoryInfo.path cat).

(** The inline style of a category link: background colour and glow when
    the link is active, the empty object otherwise. *)
Definition linkStyle (pathname : string) (cat : CategoryInfo.t)
  : option (string * string) :=
  if isActive pathname cat then
    Some (CategoryInfo.color cat, "0 0 20px " +:+ CategoryInfo.color cat +:+ "66")
  else None.

(** How many of the ten links (Home, the categories, admin) are drawn as
    active. *)
Definition activeLinkCount (pathname : string) : nat :=
  (if homeActive pathname then 1 else 0)
  + length (filter (fun cat => isActive pathname cat) CATEGORIES)
  + (if adminActive pathname then 1 else 0).

(** *** The scroll-to-top button *)

(** [borderColor] of the button: the theme colour with alpha 44. *)
Definition scrollToTopBorderColor (themeColor : string) : string :=
  themeColor +:+ "44".

(** "#" followed by exactly [digits] hexadecimal digits. *)
Definition isHexColor (digits : nat) (s : string) : bool :=
  match s with
  | String c rest =>
      Ascii.eqb c "#" && JS.allChars JS.isHexDigit rest
      && (String.length rest =? digits)%nat
  | EmptyString => false
  end.

(** ** Sample data for the worked examples *)

(** An item with the given id and title; the other fields are filled as for
    a finished sixteen-episode drama. *)
Definition sampleItem (id title : string) : WatchItem.t :=
  {| WatchItem.id := id;
     WatchItem.category := "kdrama";
     WatchItem.title := title;
     WatchItem.year := 2024;
     WatchItem.poster := "https://picsum.photos/seed/sample/500/750";
     WatchItem.myRating := 7;
     WatchItem.episodes := 16;
     WatchItem.episodesWatched := 16;
     WatchItem.status := "completed";
     WatchItem.genres := ["Romance"];
     WatchItem.watchLink := None;
     WatchItem.trailerUrl := None;
     WatchItem.dateAdded := "2024-12-01";
     WatchItem.lastUpdated := "2024-12-01";
     WatchItem.favorite := false |}.

(** Seven items whose titles all contain "Love". *)
Definition loveItems : list WatchItem.t :=
  [ sampleItem "s1" "Love Alarm";
    sampleItem "s2" "Lovely Runner";
    sampleItem "s3" "My Love from the Star";
    sampleItem "s4" "Love in the Moonlight";
    sampleItem "s5" "Because This Is My First Love";
    sampleItem "s6" "Love Between Fairy and Devil";
    sampleItem "s7" "Crash Course in Love" ].

(** ** Sanity checks of the embedding on concrete inputs *)

Example toLowerCase_ex : JS.toLowerCase "Dune: Part Two" = "dune: part two".
Proof. reflexivity. Qed.

Example trim_ex : JS.trim "  ov e  " = "ov e".
Proof. reflexivity. Qed.

Example includes_ex : JS.includes "lovely runner" "ov" = true
                      /\ JS.includes "lovely runner" "ov " = false
                      /\ JS.includes "abc" "" = true.
Proof. repeat split; reflexivity. Qed.

Example searchPreview_seed_ov :
  map WatchItem.id (searchPreview INITIAL_DATA "ov") = ["kd001"; "cd001"].
Proof. reflexivity. Qed.

Example searchPreview_seed_ov_space :
  searchPreview INITIAL_DATA "ov " = [] /\ JS.trim "ov " = "ov".
Proof. split; reflexivity. Qed.

Example themeColor_anime : themeColor "/anime" = "#FF7DE8".
Proof. reflexivity. Qed.

(** ** Facts about the string primitives *)

Section StringFacts.

Implicit Types s t u l r : string.

Lemma app_cons c s t : String c s +:+ t = String c (s +:+ t).
Proof. reflexivity. Qed.

Lemma app_empty_l s : "" +:+ s = s.
Proof. reflexivity. Qed.

Lemma app_assoc_string s t u : (s +:+ t) +:+ u = s +:+ (t +:+ u).
Proof. induction s as [|c s IH]; [done|]. by rewrite !app_cons, IH. Qed.

Lemma toLowerCase_app s t :
  JS.toLowerCase (s +:+ t) = JS.toLowerCase s +:+ JS.toLowerCase t.
Proof.
  induction s as [|c s IH]; [done|]. rewrite app_cons. cbn. by rewrite app_cons, IH.
Qed.

Local Ltac unfold_app := rewrite ?app_cons, ?app_empty_l in *.

(** [startsWith] decides "is a prefix of". *)
Lemma startsWith_spec s t :
  JS.startsWith s t = true <-> exists r, s = t +:+ r.
Proof.
  revert s. induction t as [|b t IH]; intros s.
  - split; [intros _; exists s; reflexivity|intros _; by destruct s].
  - destruct s as [|a s]; cbn.
    + split; [done|]. intros [r Hr]. unfold_app. done.
    + destruct (Ascii.eqb_spec a b) as [->|Hab].
      * rewrite IH. split; intros [r Hr]; exists r; unfold_app; congruence.
      * split; [done|]. intros [r Hr]. unfold_app. congruence.
Qed.

(** [includes] decides "occurs somewhere in". *)
Lemma includes_spec s t :
  JS.includes s t = true <-> exists l r, s = l +:+ (t +:+ r).
Proof.
  induction s as [|a s IH]; cbn [JS.includes].
  - rewrite orb_false_r, startsWith_spec. split.
    + intros [r Hr]. by exists "", r.
    + intros [[|c l] [r Hr]]; unfold_app; [by exists r|done].
  - rewrite orb_true_iff, startsWith_spec, IH. split.
    + intros [[r Hr]|(l & r & Hlr)].
      * by exists "", r.
      * exists (String a l), r. unfold_app. by rewrite Hlr.
    + intros ([|c l] & r & Hlr); unfold_app.
      * left. by exists r.
      * right. exists l, r. congruence.
Qed.

(** Containment is transitive: a string that contains [t] contains every
    piece of [t]. *)
Lemma includes_infix s t u l r :
  t = l +:+ (u +:+ r) -> JS.includes s t = true -> JS.includes s u = true.
Proof.
  intros -> (l' & r' & ->)%includes_spec. apply includes_spec.
  exists (l' +:+ l), (r +:+ r'). by rewrite !app_assoc_string.
Qed.

Lemma trimStart_suffix s : exists l, s = l +:+ JS.trimStart s.
Proof.
  induction s as [|c s [l IH]]; [by exists ""|]. cbn.
  destruct (JS.isWhiteSpace c); [|by exists ""].
  exists (String c l). unfold_app. by rewrite <-IH.
Qed.

Lemma trimEnd_prefix s : exists r, s = JS.trimEnd s +:+ r.
Proof.
  induction s as [|c s [r IH]]; [by exists ""|]. cbn.
  destruct (JS.trimEnd s) as [|d s'] eqn:Hs.
  - destruct (JS.isWhiteSpace c); [by exists (String c s)|].
    exists r. unfold_app. by rewrite <-IH.
  - exists r. unfold_app. by rewrite <-IH.
Qed.

(** What [trim] returns is a piece of its argument. *)
Lemma trim_infix s : exists l r, s = l +:+ (JS.trim s +:+ r).
Proof.
  destruct (trimStart_suffix s) as [l Hl].
  destruct (trimEnd_prefix (JS.trimStart s)) as [r Hr].
  exists l, r. unfold JS.trim. by rewrite <-Hr.
Qed.

Lemma trimStart_blank s : JS.trimStart s = "" <-> JS.isBlank s = true.
Proof.
  induction s as [|c s IH]; [done|]. cbn.
  destruct (JS.isWhiteSpace c); [apply IH|done].
Qed.

Lemma trimEnd_blank s : JS.trimEnd s = "" <-> JS.isBlank s = true.
Proof.
  induction s as [|c s IH]; [done|]. cbn.
  destruct (JS.trimEnd s) as [|d s'].
  - destruct (JS.isWhiteSpace c); cbn; [|done].
    split; [intros _; by apply IH|done].
  - split; [done|]. intros [_ H]%andb_true_iff. by apply IH in H.
Qed.

(** What [trimStart] leaves is blank only when it is empty. *)
Lemma trimStart_isBlank s :
  JS.isBlank (JS.trimStart s) = true -> JS.trimStart s = "".
Proof.
  induction s as [|c s IH]; [done|]. cbn.
  destruct (JS.isWhiteSpace c) eqn:Hc; [done|]. cbn. by rewrite Hc.
Qed.

(** [trim] returns the empty string exactly on blank strings. *)
Lemma trim_blank s : JS.trim s = "" <-> JS.isBlank s = true.
Proof.
  unfold JS.trim. rewrite trimEnd_blank. split.
  - intros H%trimStart_isBlank. by apply trimStart_blank.
  - intros H%trimStart_blank. by rewrite H.
Qed.

Lemma truthy_empty s : JS.truthy s = false <-> s = "".
Proof. by destruct s. Qed.

End StringFacts.

(** ** The search preview *)

Section SearchPreview.

Implicit Types (items : list WatchItem.t) (q : string) (item : WatchItem.t).

Lemma searchPreview_blank items q :
  JS.trim q = "" -> searchPreview items q = [].
Proof. unfold searchPreview. by intros ->. Qed.

Lemma searchPreview_nonblank items q :
  JS.trim q <> "" -> searchPreview items q = take 5 (matching q items).
Proof.
  unfold searchPreview. intros H. by destruct (JS.trim q).
Qed.

Lemma searchPreview_cases items q :
  (JS.trim q = "" /\ searchPreview items q = [])
  \/ (JS.trim q <> "" /\ searchPreview items q = take 5 (matching q items)).
Proof.
  destruct (decide (JS.trim q = "")) as [H|H].
  - left. eauto using searchPreview_blank.
  - right. eauto using searchPreview_nonblank.
Qed.

Lemma searchPreview_sublist items q : searchPreview items q `sublist_of` items.
Proof.
  destruct (searchPreview_cases items q) as [[_ ->]|[_ ->]].
  - apply sublist_nil_l.
  - etrans; [apply sublist_take|apply sublist_filter].
Qed.

Lemma elem_of_matching items q item :
  item ∈ matching q items <-> titleIncludes q item = true /\ item ∈ items.
Proof.
  unfold matching. rewrite list_elem_of_filter.
  by rewrite Is_true_true.
Qed.

Lemma elem_of_searchPreview items q item :
  item ∈ searchPreview items q ->
  JS.trim q <> "" /\ titleIncludes q item = true /\ item ∈ items.
Proof.
  destruct (searchPreview_cases items q) as [[_ ->]|[Hq ->]].
  - by intros ?%elem_of_nil.
  - intros (i & Hi & _)%elem_of_take. split; [done|].
    apply elem_of_matching. by eapply list_elem_of_lookup_2.
Qed.

(** A title that matches the query as typed matches the trimmed query. *)
Lemma titleIncludes_trim q item :
  titleIncludes q item = true -> titleIncludes (JS.trim q) item = true.
Proof.
  unfold titleIncludes. destruct (trim_infix q) as (l & r & Hq).
  apply (includes_infix _ _ _ (JS.toLowerCase l) (JS.toLowerCase r)).
  by rewrite <-!toLowerCase_app, <-Hq.
Qed.

End SearchPreview.

(** ** Properties of the search preview *)

(** C1. Every item of the search preview has a title that, compared without
    regard to case, contains the trimmed query. *)
Theorem searchPreview_title_contains_trimmed_query
    (items : list WatchItem.t) (q : string) (item : WatchItem.t) :
  item ∈ searchPreview items q ->
  JS.includes (JS.toLowerCase (WatchItem.title item))
              (JS.toLowerCase (JS.trim q)) = true.
Proof.
  intros (_ & Hm & _)%elem_of_searchPreview.
  by apply titleIncludes_trim in Hm.
Qed.

Lemma searchPreview_title_contains_trimmed_query_witness :
  sampleItem "s6" "Love Between Fairy and Devil" ∈ searchPreview loveItems " fAIry "
  /\ JS.includes "love between fairy and devil" (JS.toLowerCase (JS.trim " fAIry ")) = true.
Proof.
  assert (sampleItem "s6" "Love Between Fairy and Devil"
          ∈ searchPreview loveItems " fAIry ") as Hin.
  { replace (searchPreview loveItems " fAIry ")
      with [sampleItem "s6" "Love Between Fairy and Devil"] by reflexivity.
    apply list_elem_of_here. }
  split; [exact Hin|].
  exact (searchPreview_title_contains_trimmed_query loveItems " fAIry " _ Hin).
Defined.

Lemma matching_all (items : list WatchItem.t) (q : string) :
  Forall (fun item => titleIncludes q item = true) items ->
  matching q items = items.
Proof.
  unfold matching. induction 1 as [|item items Hi _ IH]; [done|].
  rewrite filter_cons_True by (by apply Is_true_true). by rewrite IH.
Qed.

(** Containment survives lower-casing both sides. *)
Lemma includes_toLowerCase (s t : string) :
  JS.includes s t = true ->
  JS.includes (JS.toLowerCase s) (JS.toLowerCase t) = true.
Proof.
  intros (l & r & ->)%includes_spec. apply includes_spec.
  exists (JS.toLowerCase l), (JS.toLowerCase r). by rewrite !toLowerCase_app.
Qed.

(** The sentence "seven items that all contain the queried substring give
    exactly five" fails for a blank query: each of the seven titles of
    [loveItems] contains a space, and the preview for the query " " is
    empty. *)
Lemma searchPreview_at_most_five_counterexample :
  length loveItems = 7
  /\ Forall (fun item => JS.includes (WatchItem.title item) " " = true) loveItems
  /\ Forall (fun item => titleIncludes " " item = true) loveItems
  /\ searchPreview loveItems " " = []
  /\ length (searchPreview loveItems " ") <> 5.
Proof.
  split; [reflexivity|]. split; [repeat constructor|].
  split; [repeat constructor|]. split; [reflexivity|]. discriminate.
Qed.

(** C2 (as amended). The search preview never has more than five items,
    however many items match; seven items whose titles all match a query
    that is not blank give exactly five, as do seven items with "Love" in
    their titles for the query "Love". *)
Theorem searchPreview_at_most_five (items : list WatchItem.t) (q : string) :
  length (searchPreview items q) <= 5
  /\ (length items = 7 ->
      JS.trim q <> "" ->
      Forall (fun item => titleIncludes q item = true) items ->
      length (searchPreview items q) = 5)
  /\ (length items = 7 ->
      Forall (fun item => JS.includes (WatchItem.title item) "Love" = true) items ->
      length (searchPreview items "Love") = 5).
Proof.
  assert (forall q', length items = 7 -> JS.trim q' <> "" ->
            Forall (fun item => titleIncludes q' item = true) items ->
            length (searchPreview items q') = 5) as Hseven.
  { intros q' Hlen Hq Hall.
    rewrite searchPreview_nonblank, matching_all, length_take by done. lia. }
  split; [|split].
  - destruct (searchPreview_cases items q) as [[_ ->]|[_ ->]]; cbn; [lia|].
    rewrite length_take. lia.
  - apply Hseven.
  - intros Hlen Hall. apply Hseven; [done|done|].
    eapply Forall_impl; [exact Hall|].
    intros item Hi. by apply (includes_toLowerCase _ "Love").
Qed.

Lemma searchPreview_at_most_five_witness :
  length loveItems = 7
  /\ JS.trim "lOVe" <> ""
  /\ Forall (fun item => titleIncludes "lOVe" item = true) loveItems
  /\ Forall (fun item => JS.includes (WatchItem.title item) "Love" = true) loveItems
  /\ length (searchPreview loveItems "lOVe") = 5
  /\ length (searchPreview loveItems "Love") = 5.
Proof.
  assert (length loveItems = 7) as H1 by reflexivity.
  assert (JS.trim "lOVe" <> "") as H2 by discriminate.
  assert (Forall (fun item => titleIncludes "lOVe" item = true) loveItems) as H3
    by (repeat constructor).
  assert (Forall (fun item => JS.includes (WatchItem.title item) "Love" = true)
                 loveItems) as H4 by (repeat constructor).
  destruct (searchPreview_at_most_five loveItems "lOVe") as (_ & Hq & Hlove).
  split; [exact H1|]. split; [exact H2|]. split; [exact H3|]. split; [exact H4|].
  split; [exact (Hq H1 H2 H3)|exact (Hlove H1 H4)].
Defined.

(** C4. A query that is empty or made of white space only gives the empty
    preview, whatever the items. *)
Theorem searchPreview_blank_query (items : list WatchItem.t) (q : string) :
  JS.isBlank q = true -> searchPreview items q = [].
Proof. intros H%trim_blank. by apply searchPreview_blank. Qed.

Lemma searchPreview_blank_query_witness :
  JS.isBlank "   " = true /\ searchPreview INITIAL_DATA "   " = []
  /\ searchPreview INITIAL_DATA "" = [].
Proof.
  split; [reflexivity|]. split.
  - apply (searchPreview_blank_query INITIAL_DATA "   "). reflexivity.
  - apply (searchPreview_blank_query INITIAL_DATA ""). reflexivity.
Defined.

(** C5. The search preview is a subsequence of the item list: it is obtained
    by deleting items, so two items of the preview stand in the order they
    have in the input. *)
Theorem searchPreview_preserves_order (items : list WatchItem.t) (q : string) :
  searchPreview items q `sublist_of` items
  /\ (forall r1 a r2 b r3,
        searchPreview items q = r1 ++ a :: r2 ++ b :: r3 ->
        exists l1 l2 l3, items = l1 ++ a :: l2 ++ b :: l3).
Proof.
  split; [apply searchPreview_sublist|].
  intros r1 a r2 b r3 Heq.
  pose proof (searchPreview_sublist items q) as Hsub. rewrite Heq in Hsub.
  apply sublist_app_l in Hsub as (k1 & k2 & -> & _ & Hsub).
  apply sublist_cons_l in Hsub as (k3 & k4 & -> & Hsub).
  apply sublist_app_l in Hsub as (k5 & k6 & -> & _ & Hsub).
  apply sublist_cons_l in Hsub as (k7 & k8 & -> & _).
  exists (k1 ++ k3), (k5 ++ k7), k8. by rewrite <-!app_assoc.
Qed.

Lemma searchPreview_preserves_order_witness :
  let a := sampleItem "s4" "Love in the Moonlight" in
  let b := sampleItem "s7" "Crash Course in Love" in
  searchPreview loveItems "in" = [] ++ a :: [] ++ b :: []
  /\ searchPreview loveItems "in" `sublist_of` loveItems
  /\ exists l1 l2 l3, loveItems = l1 ++ a :: l2 ++ b :: l3.
Proof.
  intros a b.
  assert (searchPreview loveItems "in" = [] ++ a :: [] ++ b :: []) as Heq
    by reflexivity.
  split; [exact Heq|].
  destruct (searchPreview_preserves_order loveItems "in") as [Hsub Hord].
  split; [exact Hsub|].
  exact (Hord [] a [] b [] Heq).
Defined.

(** *** Trimming and the containment test *)

(** The claim "search(items, q) = search(items, trim q) for every q" fails:
    a trailing blank in the query takes part in the containment test. *)
Lemma searchPreview_trim_counterexample :
  searchPreview INITIAL_DATA "ov " = []
  /\ WatchItem.id <$> searchPreview INITIAL_DATA (JS.trim "ov ") = ["kd001"; "cd001"]
  /\ searchPreview INITIAL_DATA "ov " <> searchPreview INITIAL_DATA (JS.trim "ov ").
Proof. repeat split. discriminate. Qed.

Lemma matching_trim_sublist (items : list WatchItem.t) (q : string) :
  matching q items `sublist_of` matching (JS.trim q) items.
Proof.
  unfold matching.
  rewrite <-(list_filter_filter_l (fun item => titleIncludes q item)
                                  (fun item => titleIncludes (JS.trim q) item)).
  - apply sublist_filter.
  - intros item H%Is_true_true. by apply Is_true_true, titleIncludes_trim.
Qed.

(** C3 (as amended). [trim] only decides whether the query is blank; the
    containment test uses the query as typed.  So the preview is the empty
    list on a blank query and the first five matches of the untrimmed query
    otherwise; it agrees with the preview of the trimmed query when the
    query is blank or carries no outer white space; and in general the
    matches of the query are a subsequence of those of the trimmed query. *)
Theorem searchPreview_trim_only_guards (items : list WatchItem.t) (q : string) :
  searchPreview items q
    = (if JS.isBlank q then [] else take 5 (matching q items))
  /\ (JS.isBlank q = true \/ JS.trim q = q ->
      searchPreview items q = searchPreview items (JS.trim q))
  /\ matching q items `sublist_of` matching (JS.trim q) items.
Proof.
  split; [|split].
  - destruct (JS.isBlank q) eqn:Hb.
    + by apply searchPreview_blank, trim_blank.
    + apply searchPreview_nonblank. rewrite trim_blank. congruence.
  - intros [Hb%trim_blank| ->]; [|done].
    rewrite Hb. by apply searchPreview_blank.
  - apply matching_trim_sublist.
Qed.

Lemma searchPreview_trim_only_guards_witness :
  (JS.isBlank "ov" = true \/ JS.trim "ov" = "ov")
  /\ searchPreview INITIAL_DATA "ov" = searchPreview INITIAL_DATA (JS.trim "ov").
Proof.
  assert (JS.isBlank "ov" = true \/ JS.trim "ov" = "ov") as H
    by (right; reflexivity).
  split; [exact H|].
  exact (proj1 (proj2 (searchPreview_trim_only_guards INITIAL_DATA "ov")) H).
Defined.

(** *** Only the title is read *)

Lemma titleIncludes_sameTitle (q : string) (a b : WatchItem.t) :
  sameTitle a b -> titleIncludes q a = titleIncludes q b.
Proof. unfold sameTitle, titleIncludes. by intros ->. Qed.

Lemma matching_zip (l1 l2 : list WatchItem.t) (q : string) :
  Forall2 sameTitle l1 l2 ->
  let sel := filter (fun p => titleIncludes q p.1) (zip l1 l2) in
  matching q l1 = sel.*1 /\ matching q l2 = sel.*2.
Proof.
  unfold matching. induction 1 as [|a b l1 l2 Hab _ [IH1 IH2]]; [done|].
  cbn [zip_with]. rewrite !filter_cons. cbn [fst].
  rewrite <-(titleIncludes_sameTitle q a b Hab).
  destruct (decide (titleIncludes q a)); cbn; by rewrite IH1, IH2.
Qed.

(** C7. The preview depends on the titles only: for two lists of the same
    length whose items have the same titles position by position, one
    selection of positions gives both previews, whatever the other fields
    are.  And among items titled "Lovely Runner", "Dune: Part Two" and
    "Jujutsu Kaisen" the query "ov" selects the first alone. *)
Theorem searchPreview_title_only :
  (forall (l1 l2 : list WatchItem.t) (q : string),
      Forall2 sameTitle l1 l2 ->
      exists sel : list (WatchItem.t * WatchItem.t),
        sel `sublist_of` zip l1 l2
        /\ searchPreview l1 q = sel.*1
        /\ searchPreview l2 q = sel.*2)
  /\ (forall a b c : WatchItem.t,
        WatchItem.title a = "Lovely Runner" ->
        WatchItem.title b = "Dune: Part Two" ->
        WatchItem.title c = "Jujutsu Kaisen" ->
        searchPreview [a; b; c] "ov" = [a]).
Proof.
  split.
  - intros l1 l2 q H.
    destruct (searchPreview_cases l1 q) as [[Hq E1]|[Hq E1]].
    + exists []. rewrite E1, (searchPreview_blank l2 q Hq).
      split; [apply sublist_nil_l|done].
    + destruct (matching_zip l1 l2 q H) as [M1 M2].
      exists (take 5 (filter (fun p => titleIncludes q p.1) (zip l1 l2))).
      rewrite E1, (searchPreview_nonblank l2 q Hq), M1, M2, !fmap_take.
      split; [|done]. etrans; [apply sublist_take|apply sublist_filter].
  - intros a b c Ha Hb Hc. unfold searchPreview. cbn [JS.trim negb].
    change (take 5 (filter (fun item => titleIncludes "ov" item) [a; b; c]) = [a]).
    rewrite !filter_cons, filter_nil. unfold titleIncludes.
    rewrite Ha, Hb, Hc. reflexivity.
Qed.

Lemma searchPreview_title_only_witness :
  Forall2 sameTitle (take 3 INITIAL_DATA)
    [sampleItem "a" "Lovely Runner"; sampleItem "b" "Dune: Part Two";
     sampleItem "c" "Jujutsu Kaisen"]
  /\ searchPreview (take 3 INITIAL_DATA) "ov" = take 1 INITIAL_DATA
  /\ searchPreview [sampleItem "a" "Lovely Runner"; sampleItem "b" "Dune: Part Two";
                   sampleItem "c" "Jujutsu Kaisen"] "ov"
     = [sampleItem "a" "Lovely Runner"]
  /\ exists sel : list (WatchItem.t * WatchItem.t),
       searchPreview (take 3 INITIAL_DATA) "ov" = sel.*1
       /\ searchPreview [sampleItem "a" "Lovely Runner"; sampleItem "b" "Dune: Part Two";
                         sampleItem "c" "Jujutsu Kaisen"] "ov" = sel.*2.
Proof.
  assert (Forall2 sameTitle (take 3 INITIAL_DATA)
            [sampleItem "a" "Lovely Runner"; sampleItem "b" "Dune: Part Two";
             sampleItem "c" "Jujutsu Kaisen"]) as H
    by (repeat constructor).
  destruct searchPreview_title_only as [Hpos Hex].
  split; [exact H|]. split; [|split].
  - pose (d := sampleItem "" "").
    exact (Hex (nth 0 INITIAL_DATA d) (nth 1 INITIAL_DATA d) (nth 2 INITIAL_DATA d)
               eq_refl eq_refl eq_refl).
  - exact (Hex (sampleItem "a" "Lovely Runner") (sampleItem "b" "Dune: Part Two")
               (sampleItem "c" "Jujutsu Kaisen") eq_refl eq_refl eq_refl).
  - destruct (Hpos _ _ "ov" H) as (sel & _ & E1 & E2). by exists sel.
Defined.

(** *** Completeness *)

(** C9. For a query that is not blank the preview is exactly the first
    min(5, n) of the n items whose title contains, without regard to case,
    the query as typed; so a matching item with fewer than five matches
    before it is in the preview. *)
Theorem searchPreview_complete (items : list WatchItem.t) (q : string) :
  JS.trim q <> "" ->
  let n := length (matching q items) in
  searchPreview items q = take (min 5 n) (matching q items)
  /\ length (searchPreview items q) = min 5 n
  /\ matching q items `sublist_of` items
  /\ (forall item,
        item ∈ matching q items <->
        JS.includes (JS.toLowerCase (WatchItem.title item)) (JS.toLowerCase q) = true
        /\ item ∈ items)
  /\ (forall pre item post,
        items = pre ++ item :: post ->
        titleIncludes q item = true ->
        length (matching q pre) < 5 ->
        item ∈ searchPreview items q).
Proof.
  intros Hq n. rewrite (searchPreview_nonblank items q Hq).
  split; [|split; [|split; [|split]]].
  - destruct (decide (5 <= n)) as [Hn|Hn].
    + by rewrite Nat.min_l.
    + rewrite Nat.min_r by lia. subst n. by rewrite !take_ge by lia.
  - by rewrite length_take.
  - apply sublist_filter.
  - intros item. apply elem_of_matching.
  - intros pre item post -> Hitem Hpre. unfold matching in *.
    rewrite filter_app, filter_cons_True by (by apply Is_true_true).
    apply elem_of_take. eexists. split; [apply list_lookup_middle; done|done].
Qed.

Lemma searchPreview_complete_witness :
  JS.trim " love" <> ""
  /\ length (matching " love" loveItems) = 3
  /\ WatchItem.id <$> searchPreview loveItems " love" = ["s3"; "s5"; "s7"]
  /\ searchPreview loveItems " love" = take (min 5 3) (matching " love" loveItems)
  /\ sampleItem "s7" "Crash Course in Love" ∈ searchPreview loveItems " love".
Proof.
  assert (JS.trim " love" <> "") as Hq by discriminate.
  destruct (searchPreview_complete loveItems " love" Hq) as (E & _ & _ & _ & Hin).
  split; [exact Hq|]. split; [reflexivity|]. split; [reflexivity|].
  split; [exact E|].
  apply (Hin (take 6 loveItems) _ []); [reflexivity|reflexivity|].
  change (length (matching " love" (take 6 loveItems))) with 2. lia.
Defined.

(** ** Theme resolution *)

Lemma currentCategory_None (pathname : string) :
  (forall cat, cat ∈ CATEGORIES -> CategoryInfo.path cat <> pathname) ->
  currentCategory pathname = None.
Proof.
  intros Hno. unfold currentCategory.
  destruct (List.find _ CATEGORIES) as [cat|] eqn:Hfind; [|done].
  apply List.find_some in Hfind as [Hin Heq]. exfalso.
  apply (Hno cat); [by apply list_elem_of_In|].
  symmetry. by apply String.eqb_eq.
Qed.

Lemma themeColor_not_category (pathname : string) :
  (forall cat, cat ∈ CATEGORIES -> CategoryInfo.path cat <> pathname) ->
  themeColor pathname = "#A42EFF".
Proof. intros H. unfold themeColor. by rewrite (currentCategory_None _ H). Qed.

Lemma themeColor_category (cat : CategoryInfo.t) :
  cat ∈ CATEGORIES ->
  currentCategory (CategoryInfo.path cat) = Some cat
  /\ themeColor (CategoryInfo.path cat) = CategoryInfo.color cat.
Proof.
  unfold CATEGORIES. intros Hin.
  repeat (apply elem_of_cons in Hin as [->|Hin]; [by split|]).
  by apply elem_of_nil in Hin.
Qed.

(** C6. On the route path of a category the theme colour is that category's
    colour; on every other path (home, admin, unknown) it is the default
    accent #A42EFF.  The path /anime resolves to the ANIME record, whose
    colour is #FF7DE8. *)
Theorem themeColor_resolves :
  (forall cat, cat ∈ CATEGORIES ->
      themeColor (CategoryInfo.path cat) = CategoryInfo.color cat)
  /\ (forall pathname,
        (forall cat, cat ∈ CATEGORIES -> CategoryInfo.path cat <> pathname) ->
        themeColor pathname = "#A42EFF")
  /\ themeColor "/" = "#A42EFF"
  /\ themeColor "/admin" = "#A42EFF"
  /\ themeColor "/no-such-route" = "#A42EFF"
  /\ currentCategory "/anime"
     = Some (CategoryInfo.Build "anime" "ANIME" "#FF7DE8"
                                "from-[#2e0a26] to-[#FF7DE8]" "/anime")
  /\ themeColor "/anime" = "#FF7DE8".
Proof.
  split; [|split].
  - intros cat Hin. by apply themeColor_category.
  - apply themeColor_not_category.
  - by repeat split.
Qed.

Lemma themeColor_resolves_witness :
  (CategoryInfo.Build "hmovie" "H-MOVIE" "#5045D9" "from-[#0a0a2e] to-[#5045D9]" "/hmovie"
     ∈ CATEGORIES)
  /\ themeColor "/hmovie" = "#5045D9"
  /\ (forall cat, cat ∈ CATEGORIES -> CategoryInfo.path cat <> "/search")
  /\ themeColor "/search" = "#A42EFF".
Proof.
  destruct themeColor_resolves as (Hcat & Hother & _).
  assert (CategoryInfo.Build "hmovie" "H-MOVIE" "#5045D9"
            "from-[#0a0a2e] to-[#5045D9]" "/hmovie" ∈ CATEGORIES) as Hin
    by (apply list_elem_of_In; cbn; tauto).
  assert (forall cat, cat ∈ CATEGORIES -> CategoryInfo.path cat <> "/search") as Hno.
  { unfold CATEGORIES. intros cat Hc.
    repeat (apply elem_of_cons in Hc as [->|Hc]; [discriminate|]).
    by apply elem_of_nil in Hc. }
  split; [exact Hin|]. split; [exact (Hcat _ Hin)|].
  split; [exact Hno|]. exact (Hother _ Hno).
Defined.

(** C10. The default accent is also the colour of the kdrama and kmovie
    categories: the paths /, /admin, /kdrama and /kmovie (and any unknown
    path) all resolve to #A42EFF, so the colour does not tell these routes
    apart. *)
Theorem themeColor_default_is_kdrama_colour :
  (forall cat, cat ∈ CATEGORIES ->
      CategoryInfo.id cat = "kdrama" \/ CategoryInfo.id cat = "kmovie" ->
      CategoryInfo.color cat = "#A42EFF")
  /\ (exists k m, k ∈ CATEGORIES /\ m ∈ CATEGORIES
        /\ CategoryInfo.id k = "kdrama" /\ CategoryInfo.path k = "/kdrama"
        /\ CategoryInfo.id m = "kmovie" /\ CategoryInfo.path m = "/kmovie")
  /\ themeColor "/" = "#A42EFF"
  /\ themeColor "/admin" = "#A42EFF"
  /\ themeColor "/kdrama" = "#A42EFF"
  /\ themeColor "/kmovie" = "#A42EFF"
  /\ (forall pathname,
        (forall cat, cat ∈ CATEGORIES -> CategoryInfo.path cat <> pathname) ->
        themeColor pathname = themeColor "/kdrama").
Proof.
  split; [|split; [|split; [|split; [|split; [|split]]]]]; try reflexivity.
  - unfold CATEGORIES. intros cat Hin Hid.
    repeat (apply elem_of_cons in Hin as [->|Hin];
            [first [reflexivity | by destruct Hid]|]).
    by apply elem_of_nil in Hin.
  - eexists (CategoryInfo.Build "kdrama" _ _ _ _), (CategoryInfo.Build "kmovie" _ _ _ _).
    split; [apply list_elem_of_In; cbn; left; reflexivity|].
    split; [apply list_elem_of_In; cbn; right; left; reflexivity|].
    by repeat split.
  - intros pathname H. by rewrite themeColor_not_category.
Qed.

Lemma themeColor_default_is_kdrama_colour_witness :
  (forall cat, cat ∈ CATEGORIES -> CategoryInfo.path cat <> "/search")
  /\ themeColor "/search" = themeColor "/kdrama"
  /\ themeColor "/" = themeColor "/kmovie".
Proof.
  destruct themeColor_default_is_kdrama_colour as (_ & _ & H1 & _ & _ & H2 & Hother).
  assert (forall cat, cat ∈ CATEGORIES -> CategoryInfo.path cat <> "/search") as Hno.
  { unfold CATEGORIES. intros cat Hc.
    repeat (apply elem_of_cons in Hc as [->|Hc]; [discriminate|]).
    by apply elem_of_nil in Hc. }
  split; [exact Hno|]. split; [exact (Hother _ Hno)|].
  exact (eq_trans H1 (eq_sym H2)).
Defined.

(** ** The seed data *)

(** C8. In INITIAL_DATA the ids are pairwise distinct, every category is the
    id of an entry of CATEGORIES, and every status is one of the five values
    of STATUS_OPTIONS. *)
Theorem INITIAL_DATA_invariants :
  NoDup (WatchItem.id <$> INITIAL_DATA)
  /\ Forall (fun item => WatchItem.category item ∈ (CategoryInfo.id <$> CATEGORIES))
            INITIAL_DATA
  /\ Forall (fun item => WatchItem.status item ∈ (StatusOption.value <$> STATUS_OPTIONS))
            INITIAL_DATA
  /\ StatusOption.value <$> STATUS_OPTIONS
     = ["watching"; "completed"; "plan-to-watch"; "on-hold"; "dropped"].
Proof.
  split; [|split; [|split]].
  - apply (bool_decide_unpack _). by vm_compute.
  - apply (bool_decide_unpack _). by vm_compute.
  - apply (bool_decide_unpack _). by vm_compute.
  - reflexivity.
Qed.

(** ** Further properties of the search preview *)

(** The preview as a function of the query as typed. *)
Lemma searchPreview_isBlank (items : list WatchItem.t) (q : string) :
  searchPreview items q = if JS.isBlank q then [] else take 5 (matching q items).
Proof.
  destruct (JS.isBlank q) eqn:Hb.
  - by apply searchPreview_blank, trim_blank.
  - apply searchPreview_nonblank. rewrite trim_blank. congruence.
Qed.

Lemma matching_Forall (items : list WatchItem.t) (q : string) :
  Forall (fun item => titleIncludes q item = true) (matching q items).
Proof. apply Forall_forall. by intros item [H _]%elem_of_matching. Qed.

Lemma take_app_take {A} (n m : nat) (a b : list A) :
  n <= m -> take n (take n a ++ take m b) = take n (a ++ b).
Proof.
  revert a. induction n as [|n IH]; intros a Hnm; [done|].
  destruct a as [|x a]; cbn.
  - rewrite take_take. by rewrite Nat.min_l.
  - f_equal. apply IH. lia.
Qed.

(** X1. Searching again within a preview changes nothing. *)
Theorem searchPreview_idempotent (items : list WatchItem.t) (q : string) :
  searchPreview (searchPreview items q) q = searchPreview items q.
Proof.
  rewrite !searchPreview_isBlank. destruct (JS.isBlank q); [done|].
  rewrite (matching_all (take 5 (matching q items))).
  - by rewrite take_take.
  - apply Forall_take, matching_Forall.
Qed.

(** X2. The preview of a concatenation is the first five of the two previews
    put together; so items added at the end never displace a result, and
    once five results come from the first part the rest is not looked at. *)
Theorem searchPreview_app (l1 l2 : list WatchItem.t) (q : string) :
  searchPreview (l1 ++ l2) q = take 5 (searchPreview l1 q ++ searchPreview l2 q)
  /\ searchPreview l1 q `prefix_of` searchPreview (l1 ++ l2) q
  /\ (length (searchPreview l1 q) = 5 ->
      searchPreview (l1 ++ l2) q = searchPreview l1 q).
Proof.
  rewrite !searchPreview_isBlank. destruct (JS.isBlank q).
  { repeat split; done. }
  unfold matching. rewrite filter_app.
  set (a := filter _ l1). set (b := filter _ l2). split; [|split].
  - by rewrite take_app_take.
  - exists (take (5 - length a) b). by rewrite take_app.
  - rewrite length_take. intros H. rewrite take_app_le by lia. done.
Qed.

Lemma searchPreview_app_witness :
  length (searchPreview (take 5 loveItems) "love") = 5
  /\ searchPreview (take 5 loveItems ++ INITIAL_DATA) "love"
     = searchPreview (take 5 loveItems) "love".
Proof.
  assert (length (searchPreview (take 5 loveItems) "love") = 5) as H by reflexivity.
  split; [exact H|].
  exact (proj2 (proj2 (searchPreview_app (take 5 loveItems) INITIAL_DATA "love")) H).
Defined.

Lemma isWhiteSpace_lowerUnit (c : ascii) :
  JS.isWhiteSpace (JS.lowerUnit c) = JS.isWhiteSpace c.
Proof. by destruct c as [[] [] [] [] [] [] [] []]. Qed.

Lemma lowerUnit_idemp (c : ascii) : JS.lowerUnit (JS.lowerUnit c) = JS.lowerUnit c.
Proof. by destruct c as [[] [] [] [] [] [] [] []]. Qed.

Lemma isBlank_toLowerCase (s : string) :
  JS.isBlank (JS.toLowerCase s) = JS.isBlank s.
Proof.
  induction s as [|c s IH]; [done|]. cbn.
  by rewrite isWhiteSpace_lowerUnit, IH.
Qed.

Lemma toLowerCase_idemp (s : string) :
  JS.toLowerCase (JS.toLowerCase s) = JS.toLowerCase s.
Proof.
  induction s as [|c s IH]; [done|]. cbn. by rewrite lowerUnit_idemp, IH.
Qed.

(** X3. The case of the query does not matter: two queries with the same
    lower-case form give the same preview, and so does the lower-cased
    query itself. *)
Theorem searchPreview_query_case (items : list WatchItem.t) (q1 q2 : string) :
  (JS.toLowerCase q1 = JS.toLowerCase q2 ->
   searchPreview items q1 = searchPreview items q2)
  /\ searchPreview items (JS.toLowerCase q1) = searchPreview items q1.
Proof.
  assert (forall a b, JS.toLowerCase a = JS.toLowerCase b ->
            searchPreview items a = searchPreview items b) as Hgen.
  { intros a b Hab. rewrite !searchPreview_isBlank.
    rewrite <-(isBlank_toLowerCase a), <-(isBlank_toLowerCase b), Hab.
    unfold matching, titleIncludes. by rewrite Hab. }
  split; [apply Hgen|]. apply Hgen, toLowerCase_idemp.
Qed.

Lemma searchPreview_query_case_witness :
  JS.toLowerCase "LoVe iN" = JS.toLowerCase "love IN"
  /\ searchPreview loveItems "LoVe iN" = searchPreview loveItems "love IN".
Proof.
  assert (JS.toLowerCase "LoVe iN" = JS.toLowerCase "love IN") as H by reflexivity.
  split; [exact H|].
  exact (proj1 (searchPreview_query_case loveItems "LoVe iN" "love IN") H).
Defined.

Lemma titleIncludes_weaken (q q' : string) (item : WatchItem.t) :
  JS.includes (JS.toLowerCase q') (JS.toLowerCase q) = true ->
  titleIncludes q' item = true -> titleIncludes q item = true.
Proof.
  unfold titleIncludes. intros (l & r & Hq)%includes_spec.
  by apply (includes_infix _ _ _ l r).
Qed.

(** X4. A query whose lower-case form contains the lower-case form of
    another query matches no items but items the other matches: its
    matches are a subsequence of the other's, and when the other is not
    blank and has an empty preview, so has it. *)
Theorem searchPreview_narrows (items : list WatchItem.t) (q q' : string) :
  JS.includes (JS.toLowerCase q') (JS.toLowerCase q) = true ->
  matching q' items `sublist_of` matching q items
  /\ (JS.isBlank q = false ->
      searchPreview items q = [] ->
      searchPreview items q' = []).
Proof.
  intros Hincl.
  assert (matching q' items `sublist_of` matching q items) as Hsub.
  { unfold matching.
    rewrite <-(list_filter_filter_l
                 (fun item => titleIncludes q' item)
                 (fun item => titleIncludes q item)).
    - apply sublist_filter.
    - intros item H%Is_true_true.
      by eapply Is_true_true, titleIncludes_weaken. }
  split; [exact Hsub|].
  intros Hq. rewrite !searchPreview_isBlank, Hq. intros Hnil.
  assert (matching q items = []) as Hm.
  { destruct (matching q items); [done|discriminate]. }
  rewrite Hm in Hsub. apply sublist_nil_r in Hsub. rewrite Hsub.
  destruct (JS.isBlank q'); reflexivity.
Qed.

Lemma searchPreview_narrows_witness :
  JS.includes (JS.toLowerCase "lOXy z") (JS.toLowerCase "xY") = true
  /\ JS.isBlank "xY" = false
  /\ searchPreview INITIAL_DATA "xY" = []
  /\ searchPreview INITIAL_DATA "lOXy z" = [].
Proof.
  assert (JS.includes (JS.toLowerCase "lOXy z") (JS.toLowerCase "xY") = true)
    as H0 by reflexivity.
  assert (JS.isBlank "xY" = false) as H1 by reflexivity.
  assert (searchPreview INITIAL_DATA "xY" = []) as H2 by reflexivity.
  split; [exact H0|]. split; [exact H1|]. split; [exact H2|].
  exact (proj2 (searchPreview_narrows INITIAL_DATA "xY" "lOXy z" H0) H1 H2).
Defined.

(** X5. Distinct ids stay distinct in the preview (they are the keys of the
    rendered buttons). *)
Theorem searchPreview_ids_NoDup (items : list WatchItem.t) (q : string) :
  NoDup (WatchItem.id <$> items) ->
  NoDup (WatchItem.id <$> searchPreview items q).
Proof.
  intros H. eapply sublist_NoDup; [exact H|].
  apply fmap_sublist, searchPreview_sublist.
Qed.

Lemma searchPreview_ids_NoDup_witness :
  NoDup (WatchItem.id <$> INITIAL_DATA)
  /\ NoDup (WatchItem.id <$> searchPreview INITIAL_DATA "ov").
Proof.
  assert (NoDup (WatchItem.id <$> INITIAL_DATA)) as H
    by (apply (bool_decide_unpack _); by vm_compute).
  split; [exact H|]. exact (searchPreview_ids_NoDup INITIAL_DATA "ov" H).
Defined.

(** ** URI component encoding *)

Lemma allChars_app (p : ascii -> bool) (s t : string) :
  JS.allChars p (s +:+ t) = JS.allChars p s && JS.allChars p t.
Proof.
  induction s as [|c s IH]; [done|].
  rewrite app_cons. cbn. by rewrite IH, andb_assoc.
Qed.

Lemma encodeURIComponent_cons (c : ascii) (s : string) :
  JS.encodeURIComponent (String c s) = JS.encodeUnit c +:+ JS.encodeURIComponent s.
Proof. reflexivity. Qed.

Lemma encodeUnit_safe (c : ascii) :
  JS.allChars (fun d => JS.isUnreserved d || Ascii.eqb d "%") (JS.encodeUnit c) = true.
Proof. by destruct c as [[] [] [] [] [] [] [] []]. Qed.

Lemma decodeFirst_encodeUnit (c : ascii) (r : string) :
  JS.decodeFirst (JS.encodeUnit c +:+ r) = Some (c, r).
Proof. by destruct c as [[] [] [] [] [] [] [] []]. Qed.

Lemma encodeURIComponent_inj (s1 s2 : string) :
  JS.encodeURIComponent s1 = JS.encodeURIComponent s2 -> s1 = s2.
Proof.
  revert s2. induction s1 as [|c1 s1 IH]; intros [|c2 s2] H; [done|..].
  - apply (f_equal JS.decodeFirst) in H.
    rewrite encodeURIComponent_cons, decodeFirst_encodeUnit in H. done.
  - apply (f_equal JS.decodeFirst) in H.
    rewrite encodeURIComponent_cons, decodeFirst_encodeUnit in H. done.
  - apply (f_equal JS.decodeFirst) in H.
    rewrite !encodeURIComponent_cons, !decodeFirst_encodeUnit in H.
    injection H as -> H. by rewrite (IH _ H).
Qed.

Lemma encodeURIComponent_allChars (q : string) :
  JS.allChars (fun d => JS.isUnreserved d || Ascii.eqb d "%")
              (JS.encodeURIComponent q) = true.
Proof.
  induction q as [|c q IH]; [done|].
  by rewrite encodeURIComponent_cons, allChars_app, encodeUnit_safe, IH.
Qed.

(** X6. What [encodeURIComponent] returns is made of unreserved characters and
    "%" only, so a character outside that set (such as & # = ? / + or the
    space) never occurs in it; and a query made of unreserved characters
    is returned as it is. *)
Theorem encodeURIComponent_safe (q : string) :
  JS.allChars (fun d => JS.isUnreserved d || Ascii.eqb d "%")
              (JS.encodeURIComponent q) = true
  /\ (forall c : ascii,
        JS.isUnreserved c || Ascii.eqb c "%" = false ->
        JS.includes (JS.encodeURIComponent q) (String c "") = false)
  /\ (JS.allChars JS.isUnreserved q = true -> JS.encodeURIComponent q = q).
Proof.
  split; [apply encodeURIComponent_allChars|split].
  - intros c Hc. apply not_true_is_false. intros (l & r & Heq)%includes_spec.
    pose proof (encodeURIComponent_allChars q) as Hsafe.
    rewrite Heq, !allChars_app in Hsafe. cbn in Hsafe. rewrite Hc in Hsafe.
    apply andb_true_iff in Hsafe as [_ Hsafe]. done.
  - induction q as [|c q IH]; [done|]. cbn [JS.allChars].
    intros [Hc Hq]%andb_true_iff. rewrite encodeURIComponent_cons.
    unfold JS.encodeUnit. rewrite Hc, app_cons, app_empty_l. f_equal.
    by apply IH.
Qed.

Lemma encodeURIComponent_safe_witness :
  JS.isUnreserved "&" || Ascii.eqb "&" "%" = false
  /\ JS.includes (JS.encodeURIComponent "a&b=c #d") "&" = false
  /\ JS.encodeURIComponent "a&b=c #d" = "a%26b%3Dc%20%23d"
  /\ JS.allChars JS.isUnreserved "Lovely" = true
  /\ JS.encodeURIComponent "Lovely" = "Lovely".
Proof.
  destruct (encodeURIComponent_safe "a&b=c #d") as (_ & Hno & _).
  destruct (encodeURIComponent_safe "Lovely") as (_ & _ & Hid).
  assert (JS.isUnreserved "&" || Ascii.eqb "&" "%" = false) as H1 by reflexivity.
  assert (JS.allChars JS.isUnreserved "Lovely" = true) as H2 by reflexivity.
  split; [exact H1|]. split; [exact (Hno _ H1)|]. split; [reflexivity|].
  split; [exact H2|exact (Hid H2)].
Defined.

(** ** The search form *)

Lemma handleSearch_Navigate (st : LayoutState.t) (to : string) :
  Navigate to ∈ (handleSearch st).2 ->
  JS.isBlank (LayoutState.searchQuery st) = false
  /\ to = "/search?q=" +:+ JS.encodeURIComponent (LayoutState.searchQuery st).
Proof.
  unfold handleSearch.
  destruct (JS.trim (LayoutState.searchQuery st)) as [|c t] eqn:Ht; cbn.
  - by intros [?|?%elem_of_nil]%elem_of_cons.
  - intros [?|[[= ->]|?%elem_of_nil]%elem_of_cons]%elem_of_cons; [done| |done].
    split; [|done]. apply not_true_is_false. intros Hb%trim_blank. congruence.
Qed.



(** X8. Two submits that navigate to the same address were made with the same
    query: the address keeps the whole query, outer blanks included. *)
Theorem handleSearch_address_inj (st1 st2 : LayoutState.t) (to : string) :
  Navigate to ∈ (handleSearch st1).2 ->
  Navigate to ∈ (handleSearch st2).2 ->
  LayoutState.searchQuery st1 = LayoutState.searchQuery st2.
Proof.
  intros [_ ->]%handleSearch_Navigate [_ H]%handleSearch_Navigate.
  by apply (inj (String.app "/search?q=")), encodeURIComponent_inj in H.
Qed.

Lemma handleSearch_address_inj_witness :
  Navigate "/search?q=ov%20" ∈ (handleSearch (LayoutState.Build "ov " true)).2
  /\ Navigate "/search?q=ov%20" ∈ (handleSearch (LayoutState.Build "ov " false)).2
  /\ LayoutState.searchQuery (LayoutState.Build "ov " true)
     = LayoutState.searchQuery (LayoutState.Build "ov " false).
Proof.
  assert (Navigate "/search?q=ov%20"
          ∈ (handleSearch (LayoutState.Build "ov " true)).2) as H1
    by (apply list_elem_of_In; right; left; reflexivity).
  assert (Navigate "/search?q=ov%20"
          ∈ (handleSearch (LayoutState.Build "ov " false)).2) as H2
    by (apply list_elem_of_In; right; left; reflexivity).
  split; [exact H1|]. split; [exact H2|].
  exact (handleSearch_address_inj _ _ _ H1 H2).
Defined.

(** ** The dropdown *)

(** X9. The dropdown is absent exactly when the search is closed or the query
    is empty; it shows "No matches found" exactly when the search is open,
    the query is not empty, and either the query is blank or no title
    contains it (so a query of blanks opens the panel); otherwise it shows
    the first five matches, of which there is at least one. *)
Theorem dropdown_cases (items : list WatchItem.t) (st : LayoutState.t) :
  let q := LayoutState.searchQuery st in
  (dropdown items st = Hidden <->
   LayoutState.searchActive st = false \/ q = "")
  /\ (dropdown items st = NoMatches <->
      LayoutState.searchActive st = true /\ q <> ""
      /\ (JS.isBlank q = true \/ matching q items = []))
  /\ (forall shown,
        dropdown items st = Matches shown <->
        LayoutState.searchActive st = true /\ JS.isBlank q = false
        /\ shown = take 5 (matching q items) /\ shown <> []).
Proof.
  intros q. unfold dropdown. fold q. rewrite searchPreview_isBlank.
  destruct (LayoutState.searchActive st); cbn [andb];
    [|repeat split; intros; intuition (discriminate || auto)].
  destruct q as [|c q'] eqn:Eq; cbn [JS.truthy];
    [repeat split; intros; intuition (discriminate || auto)|].
  rewrite <-Eq. assert (q <> "") as Hne by (by rewrite Eq). clear Eq.
  destruct (JS.isBlank q) eqn:Hb; cbn [length Nat.ltb Nat.leb];
    [repeat split; intros; intuition (discriminate || auto)|].
  destruct (matching q items) as [|item rest] eqn:Hm; cbn;
    [repeat split; intros; intuition (discriminate || auto)|].
  repeat split; intros; intuition (discriminate || congruence || auto).
Qed.

Lemma dropdown_cases_witness :
  dropdown INITIAL_DATA (LayoutState.Build "  " true) = NoMatches
  /\ dropdown INITIAL_DATA (LayoutState.Build "ov" false) = Hidden
  /\ exists shown, dropdown INITIAL_DATA (LayoutState.Build "ov" true) = Matches shown.
Proof.
  destruct (dropdown_cases INITIAL_DATA (LayoutState.Build "  " true))
    as (_ & [_ Hno] & _).
  destruct (dropdown_cases INITIAL_DATA (LayoutState.Build "ov" false))
    as ([_ Hhid] & _ & _).
  destruct (dropdown_cases INITIAL_DATA (LayoutState.Build "ov" true))
    as (_ & _ & Hshow).
  split; [|split].
  - apply Hno. split; [reflexivity|]. split; [discriminate|]. left. reflexivity.
  - apply Hhid. left. reflexivity.
  - eexists. apply Hshow. split; [reflexivity|]. split; [reflexivity|].
    split; [reflexivity|discriminate].
Defined.

(** ** Runs of the search box *)

Lemma run_cons (items : list WatchItem.t) (st st' : LayoutState.t)
    (ev : Event) (evs : list Event) (effs : list Effect) :
  run items st (ev :: evs) = Some (st', effs) ->
  exists st1 effs1 effs2,
    step items st ev = Some (st1, effs1)
    /\ run items st1 evs = Some (st', effs2)
    /\ effs = effs1 ++ effs2.
Proof.
  cbn. destruct (step items st ev) as [[st1 effs1]|]; [|done].
  destruct (run items st1 evs) as [[st2 effs2]|] eqn:Hrun; [|done].
  intros [= <- <-]. by exists st1, effs1, effs2.
Qed.

Lemma handleSearch_no_SelectItem (st : LayoutState.t) (id : string) :
  SelectItem id ∉ (handleSearch st).2.
Proof.
  unfold handleSearch. destruct (JS.truthy _); cbn.
  - by intros [?|[?|?%elem_of_nil]%elem_of_cons]%elem_of_cons.
  - by intros [?|?%elem_of_nil]%elem_of_cons.
Qed.

Lemma dropdown_Matches_elem (items : list WatchItem.t) (st : LayoutState.t)
    (shown : list WatchItem.t) (item : WatchItem.t) :
  dropdown items st = Matches shown ->
  item ∈ shown ->
  item ∈ items /\ titleIncludes (LayoutState.searchQuery st) item = true.
Proof.
  unfold dropdown. destruct (_ && _); [|done].
  destruct (0 <? _); [|done]. intros [= <-].
  intros (_ & Hm & Hin)%elem_of_searchPreview. done.
Qed.

Lemma step_SelectItem (items : list WatchItem.t) (st st' : LayoutState.t)
    (ev : Event) (effs : list Effect) (id : string) :
  step items st ev = Some (st', effs) ->
  SelectItem id ∈ effs ->
  exists item, item ∈ items /\ WatchItem.id item = id
               /\ titleIncludes (LayoutState.searchQuery st) item = true.
Proof.
  destruct ev as [|value| |index|inside]; cbn.
  - intros [= <- <-]. by intros ?%elem_of_nil.
  - destruct (LayoutState.searchActive st); [|done].
    intros [= <- <-]. by intros ?%elem_of_nil.
  - destruct (LayoutState.searchActive st); [|done].
    intros [= Heq] Hin. exfalso.
    apply (handleSearch_no_SelectItem st id). by rewrite Heq.
  - destruct (dropdown items st) as [| |shown] eqn:Hd; [done|done|].
    destruct (shown !! index) as [item|] eqn:Hi; [|done].
    intros [= <- <-]. intros [[= ->]|?%elem_of_nil]%elem_of_cons; [|done].
    exists item.
    destruct (dropdown_Matches_elem items st shown item Hd) as [H1 H2].
    { by eapply list_elem_of_lookup_2. }
    done.
  - intros [= <- <-]. by intros ?%elem_of_nil.
Qed.

(** X10. Whatever the user does, [onSelectItem] is only called with the id of
    one of the items given to the layout. *)
Theorem run_selects_given_items (items : list WatchItem.t)
    (st st' : LayoutState.t) (evs : list Event) (effs : list Effect) (id : string) :
  run items st evs = Some (st', effs) ->
  SelectItem id ∈ effs ->
  exists item, item ∈ items /\ WatchItem.id item = id.
Proof.
  revert st effs. induction evs as [|ev evs IH]; intros st effs.
  - intros [= <- <-]. by intros ?%elem_of_nil.
  - intros (st1 & effs1 & effs2 & Hstep & Hrun & ->)%run_cons.
    intros [Hin|Hin]%elem_of_app.
    + destruct (step_SelectItem _ _ _ _ _ _ Hstep Hin) as (item & ? & ? & _).
      by exists item.
    + by apply (IH st1 effs2).
Qed.

Lemma run_selects_given_items_witness :
  run INITIAL_DATA initialState
      [ClickSearchButton; ChangeQuery "ov"; ClickPreviewItem 1]
  = Some (initialState, [SelectItem "cd001"])
  /\ exists item, item ∈ INITIAL_DATA /\ WatchItem.id item = "cd001".
Proof.
  assert (run INITIAL_DATA initialState
              [ClickSearchButton; ChangeQuery "ov"; ClickPreviewItem 1]
          = Some (initialState, [SelectItem "cd001"])) as Hrun by reflexivity.
  split; [exact Hrun|].
  apply (run_selects_given_items _ _ _ _ _ "cd001" Hrun).
  apply list_elem_of_here.
Defined.

Lemma step_query (items : list WatchItem.t) (st st' : LayoutState.t)
    (ev : Event) (effs : list Effect) :
  step items st ev = Some (st', effs) ->
  LayoutState.searchQuery st' = LayoutState.searchQuery st
  \/ LayoutState.searchQuery st' = ""
  \/ ev = ChangeQuery (LayoutState.searchQuery st').
Proof.
  destruct ev as [|value| |index|inside]; cbn.
  - intros [= <- <-]. by left.
  - destruct (LayoutState.searchActive st); [|done].
    intros [= <- <-]. by right; right.
  - destruct (LayoutState.searchActive st); [|done].
    unfold handleSearch. destruct (JS.truthy _); intros [= <- <-]; auto.
  - destruct (dropdown items st) as [| |shown]; [done|done|].
    destruct (shown !! index); [|done]. intros [= <- <-]. auto.
  - unfold handleClickOutside. destruct (negb inside); intros [= <- <-]; auto.
Qed.

Lemma step_Navigate (items : list WatchItem.t) (st st' : LayoutState.t)
    (ev : Event) (effs : list Effect) (to : string) :
  step items st ev = Some (st', effs) ->
  Navigate to ∈ effs ->
  JS.isBlank (LayoutState.searchQuery st) = false
  /\ to = "/search?q=" +:+ JS.encodeURIComponent (LayoutState.searchQuery st).
Proof.
  destruct ev as [|value| |index|inside]; cbn.
  - intros [= <- <-]. by intros ?%elem_of_nil.
  - destruct (LayoutState.searchActive st); [|done].
    intros [= <- <-]. by intros ?%elem_of_nil.
  - destruct (LayoutState.searchActive st); [|done].
    intros [= Heq] Hin. apply handleSearch_Navigate. by rewrite Heq.
  - destruct (dropdown items st) as [| |shown]; [done|done|].
    destruct (shown !! index); [|done]. intros [= <- <-].
    by intros [?|?%elem_of_nil]%elem_of_cons.
  - intros [= <- <-]. by intros ?%elem_of_nil.
Qed.

(** X11. During any sequence of events on the search box (button click,
    typing, submit, click on a preview entry, mousedown) the handlers call
    [navigate] only with a search address, and only for a non-blank query
    that was in the box at the start or typed since.  (The links of the
    navigation bar are no part of these events.) *)
Theorem run_navigates_typed_query (items : list WatchItem.t)
    (st st' : LayoutState.t) (evs : list Event) (effs : list Effect) (to : string) :
  run items st evs = Some (st', effs) ->
  Navigate to ∈ effs ->
  exists q,
    (q = LayoutState.searchQuery st \/ ChangeQuery q ∈ evs)
    /\ JS.isBlank q = false
    /\ to = "/search?q=" +:+ JS.encodeURIComponent q.
Proof.
  revert st effs. induction evs as [|ev evs IH]; intros st effs.
  - intros [= <- <-]. by intros ?%elem_of_nil.
  - intros (st1 & effs1 & effs2 & Hstep & Hrun & ->)%run_cons.
    intros [Hin|Hin]%elem_of_app.
    + destruct (step_Navigate _ _ _ _ _ _ Hstep Hin) as [Hb ->].
      exists (LayoutState.searchQuery st). auto.
    + destruct (IH st1 effs2 Hrun Hin) as (q & [->|Hq] & Hb & ->).
      * exists (LayoutState.searchQuery st1). split; [|done].
        destruct (step_query _ _ _ _ _ Hstep) as [->|[Hq| ->]].
        -- by left.
        -- by rewrite Hq in Hb.
        -- right. apply list_elem_of_here.
      * exists q. split; [|done]. right. by apply list_elem_of_further.
Qed.

Lemma run_navigates_typed_query_witness :
  run INITIAL_DATA initialState
      [ClickSearchButton; ChangeQuery "  "; SubmitSearch;
       ChangeQuery "a b"; SubmitSearch]
  = Some (initialState, [PreventDefault; PreventDefault; Navigate "/search?q=a%20b"])
  /\ exists q,
       (q = "" \/ ChangeQuery q ∈ [ClickSearchButton; ChangeQuery "  "; SubmitSearch;
                                   ChangeQuery "a b"; SubmitSearch])
       /\ JS.isBlank q = false
       /\ "/search?q=a%20b" = "/search?q=" +:+ JS.encodeURIComponent q.
Proof.
  assert (run INITIAL_DATA initialState
              [ClickSearchButton; ChangeQuery "  "; SubmitSearch;
               ChangeQuery "a b"; SubmitSearch]
          = Some (initialState,
                  [PreventDefault; PreventDefault; Navigate "/search?q=a%20b"]))
    as Hrun by reflexivity.
  split; [exact Hrun|].
  apply (run_navigates_typed_query _ _ _ _ _ _ Hrun).
  apply list_elem_of_In. right. right. left. reflexivity.
Defined.

(** X12. Clicking outside closes the search but keeps the query: opening the
    search again gives back the same state, dropdown included.  Clicking
    inside the search box changes nothing, and two clicks on the search
    button cancel out. *)
Theorem run_close_and_reopen (items : list WatchItem.t) (st : LayoutState.t) :
  (LayoutState.searchActive st = true ->
   run items st [MouseDown false; ClickSearchButton] = Some (st, []))
  /\ run items st [MouseDown true] = Some (st, [])
  /\ run items st [ClickSearchButton; ClickSearchButton] = Some (st, []).
Proof.
  destruct st as [q [|]]; repeat split; try done.
Qed.

Lemma run_close_and_reopen_witness :
  LayoutState.searchActive (LayoutState.Build "ov" true) = true
  /\ run INITIAL_DATA (LayoutState.Build "ov" true) [MouseDown false; ClickSearchButton]
     = Some (LayoutState.Build "ov" true, []).
Proof.
  split; [reflexivity|].
  apply (proj1 (run_close_and_reopen INITIAL_DATA (LayoutState.Build "ov" true))).
  reflexivity.
Defined.

(** ** Category lookup, link highlighting and derived colours *)

Lemma currentCategory_Some (pathname : string) (cat : CategoryInfo.t) :
  currentCategory pathname = Some cat ->
  cat ∈ CATEGORIES /\ CategoryInfo.path cat = pathname.
Proof.
  unfold currentCategory. intros [Hin Heq]%List.find_some.
  split; [by apply list_elem_of_In|]. symmetry. by apply String.eqb_eq.
Qed.

(** X13. Looking a path up in the registry finds a category exactly when the
    category is in the registry and has that path (no two categories share
    a path), and finds nothing exactly when no category has it. *)
Theorem currentCategory_lookup (pathname : string) :
  (forall cat,
      currentCategory pathname = Some cat <->
      cat ∈ CATEGORIES /\ CategoryInfo.path cat = pathname)
  /\ (currentCategory pathname = None <->
      forall cat, cat ∈ CATEGORIES -> CategoryInfo.path cat <> pathname).
Proof.
  split.
  - intros cat. split; [apply currentCategory_Some|].
    intros [Hin <-]. by apply themeColor_category.
  - split; [|apply currentCategory_None].
    intros Hnone cat Hin Hpath.
    apply themeColor_category in Hin as [Hsome _]. congruence.
Qed.

Lemma currentCategory_lookup_witness :
  (currentCategory "/cdrama"
   = Some (CategoryInfo.Build "cdrama" "C-DRAMA" "#F7D625"
                              "from-[#2e2a0a] to-[#F7D625]" "/cdrama"))
  /\ (CategoryInfo.Build "cdrama" "C-DRAMA" "#F7D625"
                         "from-[#2e2a0a] to-[#F7D625]" "/cdrama" ∈ CATEGORIES)
  /\ forall cat, cat ∈ CATEGORIES -> CategoryInfo.path cat <> "/CDRAMA".
Proof.
  split; [reflexivity|]. split.
  - apply (proj1 (proj1 (currentCategory_lookup "/cdrama") _) eq_refl).
  - apply (proj1 (proj2 (currentCategory_lookup "/CDRAMA"))). reflexivity.
Defined.

(** X14. Whatever the path, the theme colour is "#" and six hexadecimal digits,
    so the border colour of the scroll-to-top button, the theme colour
    followed by 44, is "#" and eight hexadecimal digits. *)
Theorem themeColor_wellformed (pathname : string) :
  isHexColor 6 (themeColor pathname) = true
  /\ isHexColor 8 (scrollToTopBorderColor (themeColor pathname)) = true.
Proof.
  unfold themeColor.
  destruct (currentCategory pathname) as [cat|] eqn:Hcat; [|by split].
  apply currentCategory_Some in Hcat as [Hin _]. unfold CATEGORIES in Hin.
  repeat (apply elem_of_cons in Hin as [->|Hin]; [by split|]).
  by apply elem_of_nil in Hin.
Qed.

(** X15. The active category link is painted in the theme colour of the page:
    its background and glow are built from the colour that [themeColor]
    gives for the same path; an inactive link has no inline style. *)
Theorem linkStyle_matches_theme (pathname : string) (cat : CategoryInfo.t) :
  cat ∈ CATEGORIES ->
  linkStyle pathname cat
  = if isActive pathname cat
    then Some (themeColor pathname, "0 0 20px " +:+ themeColor pathname +:+ "66")
    else None.
Proof.
  intros Hin. unfold linkStyle, isActive, JS.strictEq.
  destruct (String.eqb_spec pathname (CategoryInfo.path cat)) as [->|_]; [|done].
  by apply themeColor_category in Hin as [_ ->].
Qed.

Lemma linkStyle_matches_theme_witness :
  let anime := CategoryInfo.Build "anime" "ANIME" "#FF7DE8"
                                  "from-[#2e0a26] to-[#FF7DE8]" "/anime" in
  anime ∈ CATEGORIES
  /\ linkStyle "/anime" anime = Some ("#FF7DE8", "0 0 20px #FF7DE866")
  /\ linkStyle "/kdrama" anime = None.
Proof.
  intros anime.
  assert (anime ∈ CATEGORIES) as Hin
    by (apply list_elem_of_In; do 7 right; left; reflexivity).
  split; [exact Hin|]. split.
  - exact (linkStyle_matches_theme "/anime" anime Hin).
  - exact (linkStyle_matches_theme "/kdrama" anime Hin).
Defined.

Lemma activeLinkCount_other (pathname : string) :
  (forall cat, cat ∈ CATEGORIES -> CategoryInfo.path cat <> pathname) ->
  activeLinkCount pathname
  = (if homeActive pathname then 1 else 0) + (if adminActive pathname then 1 else 0).
Proof.
  intros Hno. unfold activeLinkCount.
  assert (forall l : list CategoryInfo.t,
            (forall cat, cat ∈ l -> CategoryInfo.path cat <> pathname) ->
            filter (fun cat => isActive pathname cat) l = []) as Hnil.
  { induction l as [|cat l IH]; intros Hl; [done|].
    rewrite filter_cons_False.
    - apply IH. intros c Hc. apply Hl. by apply list_elem_of_further.
    - intros Hact%Is_true_true. apply (Hl cat); [apply list_elem_of_here|].
      symmetry. by apply String.eqb_eq. }
  rewrite (Hnil CATEGORIES Hno). cbn [length]. lia.
Qed.

(** X16. At most one of the ten links is drawn as active, and exactly one on
    the home path, the admin path and the paths of the categories. *)
Theorem activeLinkCount_at_most_one (pathname : string) :
  activeLinkCount pathname <= 1
  /\ (activeLinkCount pathname = 1 <->
      pathname = "/" \/ pathname = "/admin"
      \/ exists cat, cat ∈ CATEGORIES /\ CategoryInfo.path cat = pathname).
Proof.
  destruct (currentCategory pathname) as [cat|] eqn:Hcat.
  - apply currentCategory_Some in Hcat as [Hin Hpath].
    assert (activeLinkCount pathname = 1) as ->.
    { subst pathname. unfold CATEGORIES in Hin.
      repeat (apply elem_of_cons in Hin as [->|Hin]; [reflexivity|]).
      by apply elem_of_nil in Hin. }
    split; [lia|]. split; [|done]. intros _. right. right. by exists cat.
  - assert (forall cat, cat ∈ CATEGORIES -> CategoryInfo.path cat <> pathname) as Hno.
    { intros cat Hin Hpath. apply themeColor_category in Hin as [Hsome _].
      congruence. }
    rewrite (activeLinkCount_other _ Hno). unfold homeActive, adminActive, JS.strictEq.
    destruct (String.eqb_spec pathname "/") as [->|Hh].
    { split; [cbn; lia|]. split; [by left|reflexivity]. }
    destruct (String.eqb_spec pathname "/admin") as [->|Ha].
    { split; [cbn; lia|]. split; [by right; left|reflexivity]. }
    split; [cbn; lia|]. split; [cbn; lia|].
    intros [?|[?|(cat & Hin & Hpath)]]; [done|done|]. by destruct (Hno cat Hin).
Qed.

Lemma activeLinkCount_at_most_one_witness :
  activeLinkCount "/admin" = 1
  /\ activeLinkCount "/hdrama" = 1
  /\ activeLinkCount "/search" = 0.
Proof.
  split; [|split].
  - apply (proj2 (activeLinkCount_at_most_one "/admin")). right. left. reflexivity.
  - apply (proj2 (activeLinkCount_at_most_one "/hdrama")). right. right.
    exists (CategoryInfo.Build "hdrama" "H-DRAMA" "#5045D9"
                               "from-[#0a0a2e] to-[#5045D9]" "/hdrama").
    split; [|reflexivity]. apply list_elem_of_In. do 2 right. left. reflexivity.
  - reflexivity.
Defined.

(** ** Items that do not match *)

(** X17. An item whose title does not contain the query has no influence on the
    preview: with or without it the preview is the same. *)
Theorem searchPreview_ignores_nonmatching
    (l1 l2 : list WatchItem.t) (x : WatchItem.t) (q : string) :
  titleIncludes q x = false ->
  searchPreview (l1 ++ x :: l2) q = searchPreview (l1 ++ l2) q.
Proof.
  intros Hx. rewrite !searchPreview_isBlank. unfold matching.
  rewrite !filter_app, filter_cons_False; [done|].
  rewrite Hx. by intros [].
Qed.

Lemma searchPreview_ignores_nonmatching_witness :
  titleIncludes "love" (sampleItem "d" "Dune: Part Two") = false
  /\ searchPreview (take 2 loveItems ++ sampleItem "d" "Dune: Part Two" :: drop 2 loveItems)
                   "love"
     = searchPreview (take 2 loveItems ++ drop 2 loveItems) "love".
Proof.
  assert (titleIncludes "love" (sampleItem "d" "Dune: Part Two") = false) as H
    by reflexivity.
  split; [exact H|].
  exact (searchPreview_ignores_nonmatching (take 2 loveItems) (drop 2 loveItems) _ _ H).
Defined.
